(** * Traffic-Light-Board: the firmware of [main.c], embedded and verified

    The program is bare-metal C for a Raspberry Pi 4: it configures five GPIO
    lines and the GIC-400 distributor through memory-mapped registers, and
    then runs a polling loop that drives three LEDs in a pattern chosen by the
    global word [sharedValue].

    The embedding is shallow.  Every C function of [main.c] is a command of a
    small state-and-trace monad: the state holds the readable registers and
    the two globals, the trace records every volatile access and every call
    to a collaborator (UART, system registers, timer) in program order. *)

From Stdlib Require Import ZArith List String Bool Lia.
Import ListNotations.
Local Open Scope Z_scope.
Local Open Scope list_scope.

(** ** Unsigned 32-bit arithmetic *)

Module U32.

Definition modulus : Z := 2 ^ 32.

Definition wrap (z : Z) : Z := z mod modulus.

(** [~x] on an [int] constant, converted to [unsigned int] by the
    compound assignment it is used in. *)
Definition lnot (x : Z) : Z := wrap (Z.lnot x).

(** [x << n] *)
Definition shl (x n : Z) : Z := wrap (Z.shiftl x n).

(** [r &= mask] and [r |= bits] *)
Definition land (r mask : Z) : Z := Z.land r mask.
Definition lor (r bits : Z) : Z := Z.lor r bits.

(** A [width]-bit field of a register word, starting at bit [lo]. *)
Definition field (w lo width : Z) : Z :=
  Z.land (Z.shiftr w lo) (Z.ones width).

End U32.

(** ** Registers *)

(** Modelled from the spec: the four register banks of the distributor that
    [main.c] indexes.  Their macros are declared in [gic.h], which is not
    among the sources; section 3 of the specification gives every register
    a 32-bit access width, and the constants [main.c] stores through these
    pointers (0x01010101, 0xFFFFFFFF, 0x00020000) need a 32-bit lvalue.  A
    bank is therefore a pointer to 32-bit words, and the C expression
    [P + k] designates the [k]-th word after [P]. *)
Inductive gicd_bank : Type :=
| GIC_GICD_ISENABLER
| GIC_GICD_IPRIORITYR
| GIC_GICD_ITARGETSR
| GIC_GICD_ICFGR.

(** Modelled from the spec: the registers [main.c] names, by the macros of
    [gpio.h] and [gic.h]; each is one 32-bit word (section 3). *)
Inductive reg : Type :=
| GPFSEL0
| GPFSEL1
| GPSET0
| GPCLR0
| GPREN0
| GPFEN0
| GPPUPPDN0
| GIC_GICD_CTLR
| GICD (b : gicd_bank) (k : Z).

(** [*(P + k)] for a distributor register bank [P]. *)
Notation "P +w k" := (GICD P k) (at level 35, no associativity).

Definition gicd_bank_eqb (a b : gicd_bank) : bool :=
  match a, b with
  | GIC_GICD_ISENABLER, GIC_GICD_ISENABLER
  | GIC_GICD_IPRIORITYR, GIC_GICD_IPRIORITYR
  | GIC_GICD_ITARGETSR, GIC_GICD_ITARGETSR
  | GIC_GICD_ICFGR, GIC_GICD_ICFGR => true
  | _, _ => false
  end.

Definition reg_eqb (a b : reg) : bool :=
  match a, b with
  | GPFSEL0, GPFSEL0
  | GPFSEL1, GPFSEL1
  | GPSET0, GPSET0
  | GPCLR0, GPCLR0
  | GPREN0, GPREN0
  | GPFEN0, GPFEN0
  | GPPUPPDN0, GPPUPPDN0
  | GIC_GICD_CTLR, GIC_GICD_CTLR => true
  | GICD p i, GICD q j => gicd_bank_eqb p q && (i =? j)
  | _, _ => false
  end.

(** ** Events and machine state *)

Inductive event : Type :=
| Load (r : reg) (v : Z)
| Store (r : reg) (v : Z)
| Uart_init
| Uart_puts (s : string)
| Uart_puthex (v : Z)
| GetCurrentEL (v : Z)
| GetSPSel (v : Z)
| GetDAIF (v : Z)
| EnableIRQ
| Microsecond_delay (us : Z)
| Nop.

Definition trace : Type := list event.

(** The readable register file and the two globals of [main.c].  [irq]
    records whether [enableIRQ] has run. *)
Record machine : Type := Machine {
  regs : reg -> Z;
  sharedValue : Z;
  redBool : Z;
  irq : bool
}.

(** Modelled from the spec: what the queries of [sysreg.h] return to [main]
    (section 6, "exception-level and processor-flag queries").  They are
    implemented outside [main.c], so their results are inputs of the model;
    the DAIF flags may differ before and after interrupts are enabled. *)
Record sysreg : Type := Sysreg {
  currentEL : Z;
  spsel : Z;
  daif : bool -> Z
}.

Definition upd (f : reg -> Z) (r : reg) (v : Z) : reg -> Z :=
  fun r' => if reg_eqb r r' then v else f r'.

(** [GPSET0] and [GPCLR0] are write-one-to-act ports, not storage: a store
    to them leaves the readable register file alone and shows only in the
    trace (and, through [gpio_step] below, on the output lines). *)
Definition is_port (r : reg) : bool :=
  match r with
  | GPSET0 | GPCLR0 => true
  | _ => false
  end.

(** ** The monad of commands *)

Definition M (A : Type) : Type := machine -> A * machine * trace.

Definition ret {A : Type} (a : A) : M A := fun m => (a, m, []).

Definition bind {A B : Type} (c : M A) (k : A -> M B) : M B :=
  fun m =>
    let '(a, m1, t1) := c m in
    let '(b, m2, t2) := k a m1 in
    (b, m2, t1 ++ t2).

Notation "x <- c ;; k" := (bind c (fun x => k))
  (at level 61, c at next level, right associativity).
Notation "c ;; k" := (bind c (fun _ => k))
  (at level 61, right associativity).

Definition emit (e : event) : M unit := fun m => (tt, m, [e]).

Definition load (r : reg) : M Z :=
  fun m => (regs m r, m, [Load r (regs m r)]).

Definition store (r : reg) (v : Z) : M unit :=
  fun m =>
    (tt,
     if is_port r then m
     else Machine (upd (regs m) r v) (sharedValue m) (redBool m) (irq m),
     [Store r v]).

Definition get_sharedValue : M Z := fun m => (sharedValue m, m, []).

Definition set_sharedValue (v : Z) : M unit :=
  fun m => (tt, Machine (regs m) v (redBool m) (irq m), []).

Definition set_redBool (v : Z) : M unit :=
  fun m => (tt, Machine (regs m) (sharedValue m) v (irq m), []).

Definition state_of {A : Type} (x : A * machine * trace) : machine :=
  snd (fst x).

Definition trace_of {A : Type} (x : A * machine * trace) : trace := snd x.

(** [r = n; while (r--) { asm volatile("nop"); }] : [n] no-ops. *)
Fixpoint nops (n : nat) : M unit :=
  match n with
  | O => ret tt
  | S n' => emit Nop ;; nops n'
  end.

Definition busy_wait (n : Z) : M unit := nops (Z.to_nat n).

(** [for (i = lo; i < hi; i++) body(i)], with the iteration count as fuel. *)
Fixpoint for_from (fuel : nat) (i hi : Z) (body : Z -> M unit) : M unit :=
  match fuel with
  | O => ret tt
  | S fuel' =>
      if i <? hi then body i ;; for_from fuel' (i + 1) hi body else ret tt
  end.

Definition for_range (lo hi : Z) (body : Z -> M unit) : M unit :=
  for_from (Z.to_nat (hi - lo)) lo hi body.

(** ** Collaborators

    Modelled from the spec: the console, the timer and the global interrupt
    enable are called by [main.c] and implemented elsewhere (section 6); a
    call is recorded in the trace, with its argument. *)

Definition uart_init : M unit := emit Uart_init.
Definition uart_puts (s : string) : M unit := emit (Uart_puts s).
Definition uart_puthex (v : Z) : M unit := emit (Uart_puthex v).
Definition microsecond_delay (us : Z) : M unit := emit (Microsecond_delay us).

Definition enableIRQ : M unit :=
  fun m => (tt, Machine (regs m) (sharedValue m) (redBool m) true, [EnableIRQ]).

Section Program.

Variable sys : sysreg.

Definition getCurrentEL : M Z :=
  fun m => (currentEL sys, m, [GetCurrentEL (currentEL sys)]).

Definition getSPSel : M Z :=
  fun m => (spsel sys, m, [GetSPSel (spsel sys)]).

Definition getDAIF : M Z :=
  fun m => (daif sys (irq m), m, [GetDAIF (daif sys (irq m))]).

(** ** GPIO line configuration (main.c, lines 191-282) *)

Definition init_GPIO0_to_risingEdgeInterrupt : M unit :=
  r <- load GPFSEL0 ;;
  store GPFSEL0 (U32.land r (U32.lnot 7)) ;;
  busy_wait 150 ;;
  r <- load GPPUPPDN0 ;;
  store GPPUPPDN0 (U32.lor (U32.land r (U32.lnot 3)) (U32.shl 1 1)) ;;
  busy_wait 150 ;;
  store GPREN0 (U32.shl 1 0).

Definition init_GPIO1_to_fallingEdgeInterrupt : M unit :=
  busy_wait 150 ;;
  r <- load GPFSEL0 ;;
  store GPFSEL0 (U32.land r (U32.lnot (Z.shiftl 7 3))) ;;
  busy_wait 150 ;;
  r <- load GPPUPPDN0 ;;
  store GPPUPPDN0 (U32.land r (U32.lnot (Z.shiftl 3 2))) ;;
  busy_wait 150 ;;
  store GPFEN0 (U32.shl 1 1).

Definition init_GPIO4_to_output : M unit :=
  r <- load GPFSEL0 ;;
  store GPFSEL0 (U32.lor (U32.land r (U32.lnot (Z.shiftl 7 12))) (U32.shl 1 12)).

Definition set_GPIO4 : M unit :=
  r <- load GPREN0 ;;
  store GPREN0 (U32.land r (U32.lnot (Z.shiftl 1 0))) ;;
  store GPSET0 (U32.shl 1 4) ;;
  r <- load GPREN0 ;;
  store GPREN0 (U32.lor r (U32.shl 1 0)).

Definition clear_GPIO4 : M unit := store GPCLR0 (U32.shl 1 4).

Definition init_GPIO12_to_output : M unit :=
  r <- load GPFSEL1 ;;
  store GPFSEL1 (U32.lor (U32.land r (U32.lnot (Z.shiftl 7 6))) (U32.shl 1 6)).

Definition set_GPIO12 : M unit := store GPSET0 (U32.shl 1 12).
Definition clear_GPIO12 : M unit := store GPCLR0 (U32.shl 1 12).

Definition init_GPIO16_to_output : M unit :=
  r <- load GPFSEL1 ;;
  store GPFSEL1 (U32.lor (U32.land r (U32.lnot (Z.shiftl 7 18))) (U32.shl 1 18)).

Definition set_GPIO16 : M unit := store GPSET0 (U32.shl 1 16).
Definition clear_GPIO16 : M unit := store GPCLR0 (U32.shl 1 16).

(** ** [main]: start-up (main.c, lines 30-153) *)

(** Lines 115-117. *)
Definition main_priority_loop : M unit :=
  for_range 0 16 (fun i => store (GIC_GICD_IPRIORITYR +w (i * 4)) 0x00000000).

(** Lines 119-121. *)
Definition main_target_loop : M unit :=
  for_range 8 16 (fun i => store (GIC_GICD_ITARGETSR +w (i * 4)) 0x01010101).

(** Lines 123-125. *)
Definition main_trigger_loop : M unit :=
  for_range 1 4 (fun i => store (GIC_GICD_ICFGR +w (i * 4)) 0xFFFFFFFF).

(** Lines 140-146. *)
Definition main_forwarding (el : Z) : M unit :=
  if el =? 0x3 then
    store GIC_GICD_CTLR 0x3 ;;
    uart_puts "Enabling GIC forwarding of Group 0 and 1 interrupts.\n"
  else
    store GIC_GICD_CTLR 0x1 ;;
    uart_puts "Enabling GIC forwarding of Group 1 interrupts.\n".

Definition main_startup : M unit :=
  uart_init ;;
  uart_puts "Initial Values:\n" ;;
  el <- getCurrentEL ;;
  uart_puts "  Exception level:    0x" ;;
  uart_puthex el ;;
  uart_puts "\n" ;;
  value <- getSPSel ;;
  uart_puts "  SPSel:              0x" ;;
  uart_puthex value ;;
  uart_puts "\n" ;;
  value <- getDAIF ;;
  uart_puts "  DAIF flags:         0x" ;;
  uart_puthex value ;;
  uart_puts "\n" ;;
  value <- load GPREN0 ;;
  uart_puts "  GPREN0:             0x" ;;
  uart_puthex value ;;
  uart_puts "\n" ;;
  value <- load GPFEN0 ;;
  uart_puts "  GPFEN0:             0x" ;;
  uart_puthex value ;;
  uart_puts "\n" ;;
  set_sharedValue 0 ;;
  set_redBool 1 ;;
  uart_puts "\nResetting to new values:\n" ;;
  init_GPIO0_to_risingEdgeInterrupt ;;
  init_GPIO1_to_fallingEdgeInterrupt ;;
  init_GPIO4_to_output ;;
  init_GPIO12_to_output ;;
  init_GPIO16_to_output ;;
  enableIRQ ;;
  value <- getDAIF ;;
  uart_puts "  DAIF flags:         0x" ;;
  uart_puthex value ;;
  uart_puts "\n" ;;
  uart_puts "  GPREN0:             0x" ;;
  value <- load GPREN0 ;;
  uart_puthex value ;;
  uart_puts "\n" ;;
  uart_puts "  GPFEN0:             0x" ;;
  value <- load GPFEN0 ;;
  uart_puthex value ;;
  uart_puts "\n\n" ;;
  main_priority_loop ;;
  main_target_loop ;;
  main_trigger_loop ;;
  uart_puts "Enabling Bank 0 GPIO interrupts (pins 0 - 27) in GIC:\n" ;;
  store (GIC_GICD_ISENABLER +w (1 * 4)) 0x00020000 ;;
  value <- load (GIC_GICD_ISENABLER +w (0 * 4)) ;;
  uart_puts "  GICD_ISENABLER0:    0x" ;;
  uart_puthex value ;;
  uart_puts "\n" ;;
  value <- load (GIC_GICD_ISENABLER +w (1 * 4)) ;;
  uart_puts "  GICD_ISENABLER1:    0x" ;;
  uart_puthex value ;;
  uart_puts "\n\n" ;;
  main_forwarding el ;;
  value <- load GIC_GICD_CTLR ;;
  uart_puts "  GICD_CTLR:          0x" ;;
  uart_puthex value ;;
  uart_puts "\n\n" ;;
  uart_puts "\nStarting main loop...\n".

(** ** [main]: one pass of [while (1)] (main.c, lines 156-187) *)

Definition main_loop_body : M unit :=
  sv <- get_sharedValue ;;
  (if sv =? 0 then
     uart_puts "\nState 1\n" ;;
     set_GPIO16 ;; clear_GPIO12 ;; clear_GPIO4 ;;
     microsecond_delay 500000 ;;
     set_GPIO12 ;; clear_GPIO16 ;; clear_GPIO4 ;;
     microsecond_delay 500000 ;;
     set_GPIO4 ;; clear_GPIO12 ;; clear_GPIO16 ;;
     microsecond_delay 500000
   else
     sv <- get_sharedValue ;;
     if sv =? 1 then
       uart_puts "\nState 2\n" ;;
       set_GPIO4 ;; clear_GPIO12 ;; clear_GPIO16 ;;
       microsecond_delay 250000 ;;
       set_GPIO12 ;; clear_GPIO4 ;; clear_GPIO16 ;;
       microsecond_delay 250000 ;;
       set_GPIO16 ;; clear_GPIO4 ;; clear_GPIO12 ;;
       microsecond_delay 250000
     else ret tt) ;;
  busy_wait 0x0000FFFF.

(** [main] never returns; [main_steps n] is its first [n] passes of the
    loop after start-up. *)
Fixpoint main_loop (n : nat) : M unit :=
  match n with
  | O => ret tt
  | S n' => main_loop_body ;; main_loop n'
  end.

Definition main_steps (n : nat) : M unit := main_startup ;; main_loop n.

End Program.

(** ** Observations on traces *)

(** [lo, lo+1, ..., hi-1] *)
Definition zrange (lo hi : Z) : list Z :=
  map (fun n => lo + Z.of_nat n) (seq 0 (Z.to_nat (hi - lo))).


Definition all_zero : machine := Machine (fun _ => 0) 0 0 false.
Definition sys_el (el : Z) : sysreg := Sysreg el 0 (fun _ => 0).

Definition stores (t : trace) : list (reg * Z) :=
  flat_map (fun e => match e with Store r v => [(r, v)] | _ => [] end) t.

Definition stores_to (r : reg) (t : trace) : list Z :=
  map snd (filter (fun rv => reg_eqb r (fst rv)) (stores t)).

Definition is_enableIRQ (e : event) : bool :=
  match e with
  | EnableIRQ => true
  | _ => false
  end.

(** Stores that configure a GPIO line: function select, pull
    configuration, edge-detect enables. *)
Definition is_gpio_config (e : event) : bool :=
  match e with
  | Store GPFSEL0 _ | Store GPFSEL1 _ | Store GPPUPPDN0 _
  | Store GPREN0 _ | Store GPFEN0 _ => true
  | _ => false
  end.

(** Stores that configure the interrupt controller's distributor. *)
Definition is_gic_config (e : event) : bool :=
  match e with
  | Store GIC_GICD_CTLR _ | Store (GICD _ _) _ => true
  | _ => false
  end.

Definition is_config (e : event) : bool :=
  is_gpio_config e || is_gic_config e.

(** The trace up to, and from, the first call of [enableIRQ]. *)
Fixpoint before_enable (t : trace) : trace :=
  match t with
  | [] => []
  | e :: t' => if is_enableIRQ e then [] else e :: before_enable t'
  end.

Fixpoint after_enable (t : trace) : trace :=
  match t with
  | [] => []
  | e :: t' => if is_enableIRQ e then t' else after_enable t'
  end.

Definition enable_count (t : trace) : nat := List.length (filter is_enableIRQ t).

(** "Called exactly once, after all configuration steps, never before any
    of them": one [EnableIRQ], and no configuration store behind it. *)
Definition enabled_once_after_all_configuration (t : trace) : bool :=
  (enable_count t =? 1)%nat
  && forallb (fun e => negb (is_config e)) (after_enable t).

(** ** The output lines

    The three LEDs hang on GPIO 4 (line A), GPIO 12 (line B) and GPIO 16
    (line C).  A store to [GPSET0] drives every line whose bit is 1 high, a
    store to [GPCLR0] drives it low; bits that are 0 do nothing. *)

Inductive output_event : Type :=
| Assert (mask : Z)
| Deassert (mask : Z)
| Dwell (us : Z).

Definition output_events (t : trace) : list output_event :=
  flat_map (fun e => match e with
                     | Store GPSET0 v => [Assert v]
                     | Store GPCLR0 v => [Deassert v]
                     | Microsecond_delay us => [Dwell us]
                     | _ => []
                     end) t.

(** Modelled from the spec: the set and clear registers have
    write-one-to-act semantics (section 4.2). *)
Definition gpio_step (lv : Z) (o : output_event) : Z :=
  match o with
  | Assert v => Z.lor lv v
  | Deassert v => Z.land lv (Z.lnot v)
  | Dwell _ => lv
  end.

Definition gpio_level (lv : Z) (os : list output_event) : Z :=
  fold_left gpio_step os lv.

(** The levels of the output latch at the start of every dwell. *)
Fixpoint levels_at_dwells (lv : Z) (os : list output_event) : list Z :=
  match os with
  | [] => []
  | Dwell us :: os' => lv :: levels_at_dwells lv os'
  | o :: os' => levels_at_dwells (gpio_step lv o) os'
  end.

Definition line (n : Z) : Z := Z.shiftl 1 n.
Definition line_A : Z := 4.
Definition line_B : Z := 12.
Definition line_C : Z := 16.

(** (A, B, C) as read off the latch. *)
Definition leds (lv : Z) : bool * bool * bool :=
  (Z.testbit lv line_A, Z.testbit lv line_B, Z.testbit lv line_C).

(** One phase of a pattern: assert one line, clear the two others, dwell. *)
Definition phase (on off1 off2 us : Z) : list output_event :=
  [Assert (line on); Deassert (line off1); Deassert (line off2); Dwell us].

(** ** Distributor words and interrupt IDs

    In the GIC architecture a priority word and a target word of the
    distributor each hold four 8-bit fields, those of the interrupt IDs
    [4k .. 4k+3] for word [k].  A target field is a core mask: bit [c]
    routes the interrupt to core [c]. *)

Definition ids_of_word (k : Z) : list Z :=
  map (fun b => 4 * k + b) (zrange 0 4).

Definition zeroed_priority_words (t : trace) : list Z :=
  flat_map (fun e => match e with
                     | Store (GIC_GICD_IPRIORITYR +w k) 0 => [k]
                     | _ => []
                     end) t.

Definition zeroed_priority_ids (t : trace) : list Z :=
  flat_map ids_of_word (zeroed_priority_words t).

Definition zeroes_priority_of (t : trace) (id : Z) : bool :=
  existsb (Z.eqb id) (zeroed_priority_ids t).

(** Every ID of [lo .. hi-1] has its priority zeroed. *)
Definition zeroes_every_priority (t : trace) (lo hi : Z) : bool :=
  forallb (zeroes_priority_of t) (zrange lo hi).

Fixpoint distinct (l : list Z) : bool :=
  match l with
  | [] => true
  | x :: l' => negb (existsb (Z.eqb x) l') && distinct l'
  end.

(** ** Target cores *)

Definition target_stores (t : trace) : list (Z * Z) :=
  flat_map (fun e => match e with
                     | Store (GIC_GICD_ITARGETSR +w k) v => [(k, v)]
                     | _ => []
                     end) t.

(** The target field of byte [b] of a target word. *)
Definition cpu_targets (w b : Z) : Z := U32.field w (8 * b) 8.

(** The cores among the first four that field [b] of [w] routes to. *)
Definition routed_cores (w b : Z) : list Z :=
  filter (Z.testbit (cpu_targets w b)) (zrange 0 4).

Definition bytes_identical (w : Z) : bool :=
  forallb (fun b => cpu_targets w b =? cpu_targets w 0) (zrange 0 4).

(** A target word under which the interrupt may be taken by any of the
    first four cores, with its four bytes set identically. *)
Definition targets_first_four_cores (w : Z) : bool :=
  bytes_identical w
  && forallb (fun b => forallb (Z.testbit (cpu_targets w b)) (zrange 0 4))
             (zrange 0 4).

(** ** Pull configuration *)

(** The 2-bit pull field of a line in the pull-configuration register.
    Both configuration routines comment the clearing of that field with
    "Disable pull-up/down": 0 is "no pull"; 2 is the code for pull-down. *)
Definition pull_field (w ln : Z) : Z := U32.field w (2 * ln) 2.
Definition pull_none : Z := 0.
Definition pull_down : Z := 2.

(** ** Privilege levels and forwarding masks *)

Definition highest_level : Z := 3.
Definition both_groups : Z := 0x3.
Definition non_secure_group : Z := 0x1.

(** ** Concrete machines *)

Definition shared_one : machine := Machine (fun _ => 0) 1 1 true.
Definition shared_two : machine := Machine (fun _ => 0) 2 1 true.

(** * Properties *)

(** ** Generic facts *)

Lemma enable_split (t : trace) :
  enable_count t <> 0%nat ->
  t = before_enable t ++ EnableIRQ :: after_enable t.
Proof.
  induction t as [|e t IH]; simpl.
  - intros H. now elim H.
  - destruct e; simpl; intros H; f_equal; apply IH; exact H.
Qed.

(** A privilege level is either 3 or it is not; the second case is split
    far enough for the comparison [el == 0x3] to evaluate. *)
Ltac split_el el :=
  destruct el as [|[[?|?|]|?|]|?].

Ltac run := vm_compute; repeat split; reflexivity.

(** ** Start-up order: where interrupts are enabled *)

(** C1, as stated, fails: in the start-up trace the call of [enableIRQ]
    (main.c line 92) is followed by configuration stores, namely the whole
    set-up of the interrupt controller (lines 115-146). *)
Lemma enableIRQ_precedes_gic_configuration :
  enabled_once_after_all_configuration
    (trace_of (main_startup (sys_el 3) all_zero)) = false.
Proof. vm_compute. reflexivity. Qed.

(** C1 (amended): [enableIRQ] is called exactly once during start-up; every
    GPIO configuration store (function select, pull, edge-detect enable of
    GPIO 0, 1, 4, 12 and 16) comes before that call and none after it; every
    store that configures the interrupt controller (priorities, targets,
    trigger configuration, line enable, forwarding enable) comes after that
    call and none before it.  This holds for every privilege level and every
    initial register contents. *)
Theorem enableIRQ_once_after_gpio_before_gic (sys : sysreg) (m : machine) :
  let t := trace_of (main_startup sys m) in
  enable_count t = 1%nat
  /\ t = before_enable t ++ EnableIRQ :: after_enable t
  /\ map fst (stores (before_enable t)) =
       [GPFSEL0; GPPUPPDN0; GPREN0; GPFSEL0; GPPUPPDN0; GPFEN0;
        GPFSEL0; GPFSEL1; GPFSEL1]
  /\ filter is_gic_config (before_enable t) = []
  /\ filter is_gpio_config (after_enable t) = []
  /\ map fst (stores (after_enable t)) =
       map (fun i => GIC_GICD_IPRIORITYR +w (i * 4)) (zrange 0 16)
       ++ map (fun i => GIC_GICD_ITARGETSR +w (i * 4)) (zrange 8 16)
       ++ map (fun i => GIC_GICD_ICFGR +w (i * 4)) (zrange 1 4)
       ++ [GIC_GICD_ISENABLER +w 4; GIC_GICD_CTLR].
Proof.
  intros t. destruct sys as [el sp df].
  assert (Hc : enable_count t = 1%nat)
    by (subst t; split_el el; vm_compute; reflexivity).
  split; [exact Hc|].
  split; [apply enable_split; rewrite Hc; discriminate|].
  subst t; split_el el; run.
Qed.

(** ** Edge-detect enables *)

(** C10: the edge-detect enables are whole-register stores, so after
    [init_GPIO0_to_risingEdgeInterrupt] followed by
    [init_GPIO1_to_fallingEdgeInterrupt] the rising-edge enable register is
    exactly 0x00000001 and the falling-edge enable register exactly
    0x00000002, whatever the registers held before; the same is true when
    the whole start-up sequence has run. *)
Theorem edge_enables_after_init (sys : sysreg) (m : machine) :
  let s := state_of ((init_GPIO0_to_risingEdgeInterrupt ;;
                      init_GPIO1_to_fallingEdgeInterrupt) m) in
  let s' := state_of (main_startup sys m) in
  (regs s GPREN0 = 0x00000001 /\ regs s GPFEN0 = 0x00000002)
  /\ (regs s' GPREN0 = 0x00000001 /\ regs s' GPFEN0 = 0x00000002).
Proof.
  intros s s'. split.
  - subst s. run.
  - subst s'. destruct sys as [el sp df]. split_el el; run.
Qed.

(** ** The self-trigger guard of [set_GPIO4] *)

(** C9: from every register state, [set_GPIO4] returns with bit 0 of the
    rising-edge detect-enable register set.  Its three stores are, in order:
    [GPREN0] with bit 0 cleared, [GPSET0] with the bit of GPIO 4, [GPREN0]
    with bit 0 set again. *)
Theorem set_GPIO4_rearms_rising_edge (m : machine) :
  let r := set_GPIO4 m in
  let off := Z.land (regs m GPREN0) 0xFFFFFFFE in
  let on := Z.lor off 1 in
  Z.testbit (regs (state_of r) GPREN0) 0 = true
  /\ stores (trace_of r) = [(GPREN0, off); (GPSET0, line 4); (GPREN0, on)]
  /\ Z.testbit off 0 = false
  /\ Z.testbit on 0 = true.
Proof.
  intros r off on.
  assert (Hoff : Z.testbit off 0 = false).
  { subst off. rewrite Z.land_spec. apply andb_false_r. }
  assert (Hon : Z.testbit on 0 = true).
  { subst on. rewrite Z.lor_spec. apply orb_true_r. }
  split; [exact Hon|].
  split; [reflexivity|].
  split; assumption.
Qed.

(** ** The dispatcher *)

(** Bit [n] of the latch after a set or a clear. *)
Ltac latch_bits :=
  unfold leds, line, line_A, line_B, line_C;
  repeat rewrite ?Z.land_spec, ?Z.lor_spec, ?Z.lnot_spec by lia;
  repeat match goal with
         | |- context [Z.testbit ?lv ?n] =>
             is_var lv; destruct (Z.testbit lv n)
         end;
  reflexivity.

Lemma state0_output_events (m : machine) :
  sharedValue m = 0 ->
  output_events (trace_of (main_loop_body m)) =
    phase line_C line_B line_A 500000
    ++ phase line_B line_C line_A 500000
    ++ phase line_A line_B line_C 500000.
Proof.
  destruct m as [rg sv rb iq]; simpl; intros ->. vm_compute. reflexivity.
Qed.

Lemma state1_output_events (m : machine) :
  sharedValue m = 1 ->
  output_events (trace_of (main_loop_body m)) =
    phase line_A line_B line_C 250000
    ++ phase line_B line_A line_C 250000
    ++ phase line_C line_A line_B 250000.
Proof.
  destruct m as [rg sv rb iq]; simpl; intros ->. vm_compute. reflexivity.
Qed.

(** After the three stores of a phase the asserted line is high and the two
    others are low, whatever the latch held before. *)
Lemma phase_exclusive (on off1 off2 us lv : Z) :
  0 <= on -> 0 <= off1 -> 0 <= off2 -> on <> off1 -> on <> off2 ->
  let lv' := gpio_level lv (phase on off1 off2 us) in
  Z.testbit lv' on = true
  /\ Z.testbit lv' off1 = false
  /\ Z.testbit lv' off2 = false.
Proof.
  intros Hon H1 H2 N1 N2 lv'. subst lv'. unfold phase, gpio_level, line.
  simpl fold_left.
  repeat rewrite ?Z.land_spec, ?Z.lor_spec, ?Z.lnot_spec by lia.
  rewrite !Z.shiftl_1_l.
  rewrite !Z.pow2_bits_eqb by lia.
  rewrite !Z.eqb_refl.
  assert (E1 : (on =? off1) = false) by (apply Z.eqb_neq; lia).
  assert (E2 : (on =? off2) = false) by (apply Z.eqb_neq; lia).
  assert (E3 : (off1 =? on) = false) by (apply Z.eqb_neq; lia).
  assert (E4 : (off2 =? on) = false) by (apply Z.eqb_neq; lia).
  rewrite ?E1, ?E2, ?E3, ?E4.
  destruct (off1 =? off2), (off2 =? off1),
    (Z.testbit lv on), (Z.testbit lv off1), (Z.testbit lv off2);
    repeat split; reflexivity.
Qed.

(** C2: in a pass of the loop that finds the shared state equal to 0, the
    stores to the set and clear registers and the delays are exactly three
    phases, asserting line C (GPIO 16), then B (GPIO 12), then A (GPIO 4);
    each phase asserts one line, clears the two others and then dwells
    500000 microseconds; and at each of the three dwells exactly the line of
    that phase is high and the two others are low, whatever the lines were
    before the pass. *)
Theorem state0_pattern (m : machine) :
  sharedValue m = 0 ->
  let os := output_events (trace_of (main_loop_body m)) in
  os = phase line_C line_B line_A 500000
       ++ phase line_B line_C line_A 500000
       ++ phase line_A line_B line_C 500000
  /\ forall lv, map leds (levels_at_dwells lv os) =
                  [(false, false, true); (false, true, false);
                   (true, false, false)].
Proof.
  intros H os. subst os. rewrite (state0_output_events m H).
  split; [reflexivity|].
  intros lv. unfold phase. simpl levels_at_dwells. simpl map.
  repeat f_equal; latch_bits.
Qed.

Lemma state0_pattern_witness :
  sharedValue all_zero = 0
  /\ let os := output_events (trace_of (main_loop_body all_zero)) in
     os = phase line_C line_B line_A 500000
          ++ phase line_B line_C line_A 500000
          ++ phase line_A line_B line_C 500000
     /\ forall lv, map leds (levels_at_dwells lv os) =
                     [(false, false, true); (false, true, false);
                      (true, false, false)].
Proof.
  split; [reflexivity | apply (state0_pattern all_zero); reflexivity].
Defined.

(** Start-up leaves the shared state at 0, so the first pass of the loop
    runs the pattern of state 0 (no interrupt handler is part of [main.c]
    to change the word in between). *)
Lemma first_pass_runs_state0 (sys : sysreg) (m : machine) :
  sharedValue (state_of (main_startup sys m)) = 0
  /\ output_events (trace_of (main_steps sys 1 m)) =
       phase line_C line_B line_A 500000
       ++ phase line_B line_C line_A 500000
       ++ phase line_A line_B line_C 500000.
Proof.
  destruct sys as [el sp df]. split_el el; run.
Qed.

(** C3: in a pass of the loop that finds the shared state equal to 1, the
    stores to the set and clear registers and the delays are exactly three
    phases, asserting line A (GPIO 4), then B (GPIO 12), then C (GPIO 16);
    each phase asserts one line, clears the two others and then dwells
    250000 microseconds; and at each of the three dwells exactly the line of
    that phase is high and the two others are low, whatever the lines were
    before the pass. *)
Theorem state1_pattern (m : machine) :
  sharedValue m = 1 ->
  let os := output_events (trace_of (main_loop_body m)) in
  os = phase line_A line_B line_C 250000
       ++ phase line_B line_A line_C 250000
       ++ phase line_C line_A line_B 250000
  /\ forall lv, map leds (levels_at_dwells lv os) =
                  [(true, false, false); (false, true, false);
                   (false, false, true)].
Proof.
  intros H os. subst os. rewrite (state1_output_events m H).
  split; [reflexivity|].
  intros lv. unfold phase. simpl levels_at_dwells. simpl map.
  repeat f_equal; latch_bits.
Qed.

Lemma state1_pattern_witness :
  sharedValue shared_one = 1
  /\ let os := output_events (trace_of (main_loop_body shared_one)) in
     os = phase line_A line_B line_C 250000
          ++ phase line_B line_A line_C 250000
          ++ phase line_C line_A line_B 250000
     /\ forall lv, map leds (levels_at_dwells lv os) =
                     [(true, false, false); (false, true, false);
                      (false, false, true)].
Proof.
  split; [reflexivity | apply (state1_pattern shared_one); reflexivity].
Defined.

(** C8: in a pass of the loop that finds a shared state other than 0 and 1,
    nothing is stored to any register, in particular not to the set and
    clear registers; the three output lines keep their levels and the
    machine state is the one the pass started from. *)
Theorem other_state_is_idle (m : machine) :
  sharedValue m <> 0 ->
  sharedValue m <> 1 ->
  let r := main_loop_body m in
  stores (trace_of r) = []
  /\ output_events (trace_of r) = []
  /\ (forall lv, leds (gpio_level lv (output_events (trace_of r))) = leds lv)
  /\ state_of r = m.
Proof.
  destruct m as [rg sv rb iq]; cbn [sharedValue]; intros H0 H1.
  destruct sv as [|[p|p|]|p]; try congruence; vm_compute;
    repeat split; reflexivity.
Qed.

Lemma other_state_is_idle_witness :
  sharedValue shared_two <> 0
  /\ sharedValue shared_two <> 1
  /\ let r := main_loop_body shared_two in
     stores (trace_of r) = []
     /\ output_events (trace_of r) = []
     /\ (forall lv, leds (gpio_level lv (output_events (trace_of r))) = leds lv)
     /\ state_of r = shared_two.
Proof.
  split; [discriminate|]. split; [discriminate|].
  apply (other_state_is_idle shared_two); discriminate.
Defined.

(** ** Forwarding enable *)

(** C4: when the privilege level queried at start-up is the highest one,
    the only store to the forwarding register of the controller writes the
    mask of both groups (0x3); at every other level, in particular every
    lower one, it writes the mask of the non-secure group alone (0x1).  The
    register holds that value when start-up ends. *)
Theorem forwarding_follows_privilege (sys : sysreg) (m : machine) :
  let r := main_startup sys m in
  (currentEL sys = highest_level ->
   stores_to GIC_GICD_CTLR (trace_of r) = [both_groups]
   /\ regs (state_of r) GIC_GICD_CTLR = both_groups)
  /\ (currentEL sys <> highest_level ->
      stores_to GIC_GICD_CTLR (trace_of r) = [non_secure_group]
      /\ regs (state_of r) GIC_GICD_CTLR = non_secure_group).
Proof.
  destruct sys as [el sp df]; cbn [currentEL]. unfold highest_level. split.
  - intros ->. run.
  - intros N. split_el el; try congruence; run.
Qed.

Lemma forwarding_follows_privilege_witness :
  (let r := main_startup (sys_el 3) all_zero in
   stores_to GIC_GICD_CTLR (trace_of r) = [both_groups]
   /\ regs (state_of r) GIC_GICD_CTLR = both_groups)
  /\ (let r := main_startup (sys_el 1) all_zero in
      stores_to GIC_GICD_CTLR (trace_of r) = [non_secure_group]
      /\ regs (state_of r) GIC_GICD_CTLR = non_secure_group).
Proof.
  split.
  - apply (forwarding_follows_privilege (sys_el 3) all_zero). reflexivity.
  - apply (forwarding_follows_privilege (sys_el 1) all_zero). discriminate.
Defined.

Lemma distinct_NoDup (l : list Z) : distinct l = true -> NoDup l.
Proof.
  induction l as [|x l IH]; simpl; intros H; constructor.
  - apply andb_prop in H. destruct H as [H _].
    intros Hin. apply negb_true_iff in H.
    assert (E : existsb (Z.eqb x) l = true).
    { apply existsb_exists. exists x. split; [exact Hin | apply Z.eqb_refl]. }
    congruence.
  - apply IH. apply andb_prop in H. tauto.
Qed.

(** C5 fails on the code.  The loop of lines 115-117 stores zero to the
    words [GIC_GICD_IPRIORITYR + i*4] for i = 0 .. 15, that is to every
    fourth priority word: it zeroes the priorities of IDs 16i .. 16i+3, each
    once, and skips the twelve IDs between two such groups.  ID 4 is the
    first one skipped: its priority word keeps whatever it held before
    start-up, although IDs 0-3 and 16-19 on both sides of it are zeroed. *)
Theorem priority_zeroing_skips_ids (sys : sysreg) (m : machine) :
  let r := main_startup sys m in
  let t := trace_of r in
  zeroed_priority_words t = map (fun i => i * 4) (zrange 0 16)
  /\ zeroed_priority_ids t =
       flat_map (fun i => [16 * i; 16 * i + 1; 16 * i + 2; 16 * i + 3])
                (zrange 0 16)
  /\ NoDup (zeroed_priority_ids t)
  /\ zeroes_priority_of t 3 = true
  /\ zeroes_priority_of t 4 = false
  /\ zeroes_priority_of t 16 = true
  /\ zeroes_every_priority t 0 64 = false
  /\ regs (state_of r) (GIC_GICD_IPRIORITYR +w 1) =
       regs m (GIC_GICD_IPRIORITYR +w 1).
Proof.
  intros r t. subst t r. destruct sys as [el sp df].
  split_el el;
    (split; [vm_compute; reflexivity|];
     split; [vm_compute; reflexivity|];
     split; [apply distinct_NoDup; vm_compute; reflexivity|];
     run).
Qed.

(** ** Target cores *)

(** C6, as stated, fails: the word that start-up stores to the target
    registers is not a mask of the first four cores. *)
Lemma target_mask_is_not_four_cores :
  forallb (fun kv => targets_first_four_cores (snd kv))
          (target_stores (trace_of (main_startup (sys_el 1) all_zero)))
  = false.
Proof. vm_compute. reflexivity. Qed.

(** C6 (amended): start-up stores to eight target registers, and to each of
    them the word 0x01010101.  Its four target bytes are set identically, to
    0x01, a core mask whose only set bit is bit 0: among the first four
    cores, each field routes its interrupt to the first one only. *)
Theorem target_mask_is_first_core (sys : sysreg) (m : machine) :
  let t := trace_of (main_startup sys m) in
  map snd (target_stores t) = repeat 0x01010101 8
  /\ bytes_identical 0x01010101 = true
  /\ map (cpu_targets 0x01010101) (zrange 0 4) = [0x01; 0x01; 0x01; 0x01]
  /\ map (routed_cores 0x01010101) (zrange 0 4) = [[0]; [0]; [0]; [0]].
Proof.
  intros t. subst t. destruct sys as [el sp df]. split_el el; run.
Qed.

(** ** Pull configuration *)

(** Both routines read, modify and write back: the bits of the other
    fields of the word are kept. *)
Lemma init_GPIO0_pull_keeps_other_fields (m : machine) (i : Z) :
  2 <= i < 32 ->
  Z.testbit (regs (state_of (init_GPIO0_to_risingEdgeInterrupt m)) GPPUPPDN0) i
  = Z.testbit (regs m GPPUPPDN0) i.
Proof.
  intros Hi.
  change (regs (state_of (init_GPIO0_to_risingEdgeInterrupt m)) GPPUPPDN0)
    with (Z.lor (Z.land (regs m GPPUPPDN0) (Z.shiftl (Z.ones 30) 2)) (2 ^ 1)).
  rewrite Z.lor_spec, Z.land_spec.
  rewrite Z.shiftl_spec, Z.ones_spec_low by lia.
  rewrite Z.pow2_bits_false by lia.
  now rewrite andb_true_r, orb_false_r.
Qed.

Lemma init_GPIO1_pull_keeps_other_fields (m : machine) (i : Z) :
  0 <= i < 32 -> i <> 2 -> i <> 3 ->
  Z.testbit (regs (state_of (init_GPIO1_to_fallingEdgeInterrupt m)) GPPUPPDN0) i
  = Z.testbit (regs m GPPUPPDN0) i.
Proof.
  intros Hi N2 N3.
  change (regs (state_of (init_GPIO1_to_fallingEdgeInterrupt m)) GPPUPPDN0)
    with (Z.land (regs m GPPUPPDN0)
                 (Z.lor (Z.shiftl (Z.ones 28) 4) (Z.ones 2))).
  rewrite Z.land_spec, Z.lor_spec.
  destruct (Z_lt_le_dec i 4) as [Lo|Hi4].
  - rewrite (Z.ones_spec_low 2 i) by lia.
    now rewrite orb_true_r, andb_true_r.
  - rewrite Z.shiftl_spec, Z.ones_spec_low by lia.
    now rewrite andb_true_r.
Qed.

Lemma init_GPIO0_pull_word (m : machine) :
  regs (state_of (init_GPIO0_to_risingEdgeInterrupt m)) GPPUPPDN0 =
    Z.lor (Z.land (regs m GPPUPPDN0) 0xFFFFFFFC) 2.
Proof. reflexivity. Qed.

Lemma init_GPIO1_pull_word (m : machine) :
  regs (state_of (init_GPIO1_to_fallingEdgeInterrupt m)) GPPUPPDN0 =
    Z.land (regs m GPPUPPDN0) 0xFFFFFFF3.
Proof. reflexivity. Qed.

(** C7 fails on the code for GPIO 0.  After clearing the pull field of
    line 0, [init_GPIO0_to_risingEdgeInterrupt] sets bit 1 of the word
    (line 205), so the field it writes back is 2, pull-down, whatever the
    register held; [init_GPIO1_to_fallingEdgeInterrupt] does leave the field
    of line 1 at 0, no pull. *)
Theorem init_GPIO0_pull_is_not_disabled (m : machine) :
  let w0 := regs (state_of (init_GPIO0_to_risingEdgeInterrupt m)) GPPUPPDN0 in
  let w1 := regs (state_of (init_GPIO1_to_fallingEdgeInterrupt m)) GPPUPPDN0 in
  pull_field w0 0 = pull_down
  /\ pull_field w0 0 <> pull_none
  /\ pull_field w1 1 = pull_none.
Proof.
  intros w0 w1.
  assert (E0 : pull_field w0 0 = pull_down).
  { subst w0. rewrite init_GPIO0_pull_word. unfold pull_field, U32.field.
    change (2 * 0) with 0. rewrite Z.shiftr_0_r.
    rewrite Z.land_lor_distr_l, <- Z.land_assoc.
    replace (Z.land 0xFFFFFFFC (Z.ones 2)) with 0 by reflexivity.
    rewrite Z.land_0_r. reflexivity. }
  split; [exact E0|]. split; [rewrite E0; discriminate|].
  subst w1. rewrite init_GPIO1_pull_word. unfold pull_field, U32.field.
  rewrite Z.shiftr_land, <- Z.land_assoc.
  replace (Z.land (Z.shiftr 0xFFFFFFF3 (2 * 1)) (Z.ones 2)) with 0
    by reflexivity.
  apply Z.land_0_r.
Qed.
